(** * Discovery helpers of [homeassistant/helpers/discovery.py]

    A shallow embedding of the service and platform discovery helpers, and
    the properties of their activation-then-broadcast protocol.

    The helpers talk to three collaborators that live outside the file:
    the event bus ([hass.bus]), the job scheduler ([hass.async_add_job],
    [hass.async_run_job], [hass.add_job]) and the component set-up routine
    ([setup.async_setup_component]).  Every call a helper makes to one of
    them is recorded, in order, in the trace of the run. *)

From Stdlib Require Import ZArith String List.
From stdpp Require Import gmap strings list fin_maps.
Import ListNotations.

Local Open Scope string_scope.
Local Open Scope list_scope.

(** ** Python values *)

(** The payloads are [Any] in the source.  Dictionaries nested inside a
    value keep their insertion order. *)
#[local] Set Warnings "-register-all".
Inductive PyVal : Type :=
| PNone
| PBool (b : bool)
| PInt (z : Z)
| PStr (s : string)
| PList (items : list PyVal)
| PDict (items : list (string * PyVal)).

(** Truth value of an object, as tested by [if not x] and [assert x]. *)
Definition truthy (v : PyVal) : bool :=
  match v with
  | PNone => false
  | PBool b => b
  | PInt z => negb (z =? 0)%Z
  | PStr s => negb (String.eqb s "")
  | PList items => match items with [] => false | _ :: _ => true end
  | PDict items => match items with [] => false | _ :: _ => true end
  end.

(** [v == s] for a string [s]: only an equal string compares equal. *)
Definition py_eq_str (v : PyVal) (s : string) : bool :=
  match v with
  | PStr s' => String.eqb s' s
  | _ => false
  end.

(** [v in service] for a tuple of strings. *)
Definition py_in (v : PyVal) (service : list string) : bool :=
  existsb (py_eq_str v) service.

(** [x is not None]. *)
Definition is_not_None (v : PyVal) : bool :=
  match v with
  | PNone => false
  | _ => true
  end.

(** [d.get(key)]: [None] when the key is absent. *)
Definition dict_get (d : gmap string PyVal) (key : string) : PyVal :=
  default PNone (d !! key).

(** [key in d]. *)
Definition dict_contains (d : gmap string PyVal) (key : string) : bool :=
  bool_decide (is_Some (d !! key)).

(** ** Events, listeners, and the host object *)

Record Event : Type := mkEvent {
  event_type : string;
  data : gmap string PyVal
}.

(** A consumer callback is opaque to the helpers; it is known by name. *)
Definition Callable : Type := string.

(** The two closures the helpers hand to the bus, with the variables they
    capture: the tuple of service names (resp. the synthesized platform
    topic) and the consumer callback. *)
Inductive Listener : Type :=
| ServiceListener (service : list string) (callback : Callable)
| PlatformListener (service : string) (callback : Callable).

Record HomeAssistant : Type := mkHass {
  config_components : gset string;
  bus_listeners : gmap string (list Listener)
}.

(** Calls made to the collaborators. *)
Inductive Call : Type :=
| CSetup (component : string) (hass_config : PyVal)
| CFire (event_type : string) (event_data : gmap string PyVal)
| CAddJob (target : Callable) (arg1 arg2 : PyVal)
| CRunJob (target : Callable) (arg1 arg2 : PyVal).

Inductive Exn : Type :=
| AssertionError (msg : string)
| HomeAssistantError (msg : string)
| KeyError (key : string).

(** ** The monad of helper runs: state, exceptions, and a trace *)

Record Run (A : Type) : Type := mkRun {
  outcome : Exn + A;
  final : HomeAssistant;
  calls : list Call
}.
Arguments mkRun {A} _ _ _.
Arguments outcome {A} _.
Arguments final {A} _.
Arguments calls {A} _.

Definition M (A : Type) : Type := HomeAssistant -> Run A.

Definition ret {A : Type} (a : A) : M A := fun h => mkRun (inr a) h [].

Definition bind {A B : Type} (m : M A) (k : A -> M B) : M B := fun h =>
  let r := m h in
  match outcome r with
  | inl e => mkRun (inl e) (final r) (calls r)
  | inr a =>
      let r' := k a (final r) in
      mkRun (outcome r') (final r') (calls r ++ calls r')
  end.

Definition raise {A} (e : Exn) : M A := fun h => mkRun (inl e) h [].

Definition get_hass : M HomeAssistant := fun h => mkRun (inr h) h [].

Definition call (c : Call) : M unit := fun h => mkRun (inr tt) h [c].

#[global] Instance M_ret : MRet M := @ret.
#[global] Instance M_bind : MBind M := fun A B k m => bind m k.

(** [assert cond, msg]. *)
Definition py_assert (cond : bool) (msg : string) : M unit :=
  if cond then ret tt else raise (AssertionError msg).

(** [d[key]]: raises [KeyError] when the key is absent. *)
Definition dict_getitem (d : gmap string PyVal) (key : string) : M PyVal :=
  match d !! key with
  | Some v => ret v
  | None => raise (KeyError key)
  end.

(** ** Projections of a trace *)

Definition fired (cs : list Call) : list (string * gmap string PyVal) :=
  flat_map (fun c => match c with CFire t d => [(t, d)] | _ => [] end) cs.

Definition activations (cs : list Call) : list (string * PyVal) :=
  flat_map (fun c => match c with CSetup n cfg => [(n, cfg)] | _ => [] end) cs.

Definition is_job (c : Call) : bool :=
  match c with
  | CAddJob _ _ _ | CRunJob _ _ _ => true
  | _ => false
  end.

(** ** Constants *)

(** Modelled from the spec: the constants of [homeassistant.const], which is
    not part of the sources at hand.  The wire shape of an event is
    [{ service, discovered?, platform? }]. *)
Definition ATTR_SERVICE : string := "service".
Definition ATTR_DISCOVERED : string := "discovered".

Definition ATTR_PLATFORM : string := "platform".

(** [EVENT_LOAD_PLATFORM.format(component)] with
    [EVENT_LOAD_PLATFORM = "load_platform.{}"]. *)
Definition EVENT_LOAD_PLATFORM_format (component : string) : string :=
  "load_platform." +:+ component.

(** The message of the deny-list error. *)
Definition cannot_discover (component : string) : string :=
  "Cannot discover the " +:+ component +:+ " component.".

Definition real_config_msg : string :=
  "You need to pass in the real hass config".

(** ** The helpers *)

Section Discovery.

(** [DEPENDENCY_BLACKLIST] of [homeassistant.loader]. *)
Variable DEPENDENCY_BLACKLIST : gset string.

(** [EVENT_PLATFORM_DISCOVERED] of [homeassistant.const]: the one topic
    that carries every discovery event. *)
Variable EVENT_PLATFORM_DISCOVERED : string.

(** [setup.async_setup_component(hass, component, hass_config)]: returns
    whether the component could be set up, and leaves the host in a state
    of its choosing. *)
Variable async_setup_component :
  string -> PyVal -> HomeAssistant -> bool * HomeAssistant.

Definition setup_async_setup_component
    (component : string) (hass_config : PyVal) : M bool := fun h =>
  let res := async_setup_component component hass_config h in
  mkRun (inr res.1) res.2 [CSetup component hass_config].

(** *** Scheduler *)

(** [hass.async_add_job(target, *args)] schedules the callback;
    [hass.async_run_job(target, *args)] runs a target marked as a callback
    at once and schedules any other.  Both belong to [homeassistant.core],
    outside the sources at hand: each is recorded as a call with its
    arguments, of which the helpers only ever pass two.  What the consumer's
    callback does when it runs, an exception of its own included, is the
    consumer's and not part of a run. *)
Definition hass_async_add_job (target : Callable) (a1 a2 : PyVal) : M unit :=
  call (CAddJob target a1 a2).

Definition hass_async_run_job (target : Callable) (a1 a2 : PyVal) : M unit :=
  call (CRunJob target a1 a2).

(** Modelled from the spec: [hass.add_job(coro)] of [homeassistant.core],
    which is not part of the sources at hand.  The coroutine runs as a task
    of its own; an exception it raises ends the task and does not reach the
    caller. *)
Definition hass_add_job (coro : M unit) : M unit := fun h =>
  let r := coro h in
  mkRun (inr tt) (final r) (calls r).

(** *** The listener closures *)

(** [discovery_event_listener], the closure of [async_listen]. *)
Definition discovery_event_listener
    (service : list string) (callback : Callable) (event : Event) : M unit :=
  cond ← (if dict_contains (data event) ATTR_SERVICE
           then v ← dict_getitem (data event) ATTR_SERVICE;
                ret (py_in v service)
           else ret false);
  if cond : bool then
    v ← dict_getitem (data event) ATTR_SERVICE;
    hass_async_add_job callback v (dict_get (data event) ATTR_DISCOVERED)
  else ret tt.

(** [discovery_platform_listener], the closure of [async_listen_platform]. *)
Definition discovery_platform_listener
    (service : string) (callback : Callable) (event : Event) : M unit :=
  if negb (py_eq_str (dict_get (data event) ATTR_SERVICE) service) then ret tt
  else
    let platform := dict_get (data event) ATTR_PLATFORM in
    if negb (truthy platform) then ret tt
    else
      hass_async_run_job callback platform
        (dict_get (data event) ATTR_DISCOVERED).

Definition call_listener (l : Listener) (event : Event) : M unit :=
  match l with
  | ServiceListener service callback =>
      discovery_event_listener service callback event
  | PlatformListener service callback =>
      discovery_platform_listener service callback event
  end.

(** *** The bus *)

Definition listeners_on (topic : string) (h : HomeAssistant) : list Listener :=
  default [] (bus_listeners h !! topic).

(** Modelled from the spec: [hass.bus.async_listen(topic, handler)] of
    [homeassistant.core], which is not part of the sources at hand.  The
    handler joins the handlers of the topic, after those already there. *)
Definition bus_async_listen (topic : string) (l : Listener) : M unit := fun h =>
  mkRun (inr tt)
    (mkHass (config_components h)
       (<[topic := listeners_on topic h ++ [l]]> (bus_listeners h)))
    [].

(** Modelled from the spec: the delivery step of the bus.  One delivery per
    handler, in the order of registration; an exception in a handler is the
    handler's own and does not stop the others. *)
Fixpoint deliver (ls : list Listener) (event : Event) : M unit :=
  match ls with
  | [] => ret tt
  | l :: ls' =>
      hass_add_job (call_listener l event);;
      deliver ls' event
  end.

(** Modelled from the spec: [hass.bus.async_fire(topic, payload)] of
    [homeassistant.core], which is not part of the sources at hand.  The
    event is delivered to the handlers registered on the topic at the time
    of the call, each of them scheduled as a unit of work of its own. *)
Definition bus_async_fire
    (topic : string) (event_data : gmap string PyVal) : M unit :=
  call (CFire topic event_data);;
  h ← get_hass;
  deliver (listeners_on topic h) (mkEvent topic event_data).

(** *** Service discovery *)

Definition async_listen
    (service : string + list string) (callback : Callable) : M unit :=
  let service :=
    match service with
    | inl s => [s]
    | inr names => names
    end in
  bus_async_listen EVENT_PLATFORM_DISCOVERED (ServiceListener service callback).

(** [listen] hands [async_listen] to the loop and waits for its result. *)
Definition listen
    (service : string + list string) (callback : Callable) : M unit :=
  async_listen service callback.

(** [component] may be [None], which is in no set and needs no set-up. *)
Definition async_discover
    (service : string) (discovered : PyVal) (component : option string)
    (hass_config : PyVal) : M unit :=
  (match component with
   | Some c =>
       if bool_decide (c ∈ DEPENDENCY_BLACKLIST)
       then raise (HomeAssistantError (cannot_discover c))
       else ret tt
   | None => ret tt
   end);;
  h ← get_hass;
  (match component with
   | Some c =>
       if bool_decide (c ∉ config_components h)
       then setup_async_setup_component c hass_config;; ret tt
       else ret tt
   | None => ret tt
   end);;
  let data : gmap string PyVal := {[ATTR_SERVICE := PStr service]} in
  let data :=
    if is_not_None discovered then <[ATTR_DISCOVERED := discovered]> data
    else data in
  bus_async_fire EVENT_PLATFORM_DISCOVERED data.

Definition discover
    (service : string) (discovered : PyVal) (component : option string)
    (hass_config : PyVal) : M unit :=
  hass_add_job (async_discover service discovered component hass_config).

(** *** Platform discovery *)

Definition async_listen_platform
    (component : string) (callback : Callable) : M unit :=
  let service := EVENT_LOAD_PLATFORM_format component in
  bus_async_listen EVENT_PLATFORM_DISCOVERED
    (PlatformListener service callback).

Definition listen_platform
    (component : string) (callback : Callable) : M unit :=
  async_listen_platform component callback.

Definition async_load_platform
    (component platform : string) (discovered hass_config : PyVal) : M unit :=
  py_assert (truthy hass_config) real_config_msg;;
  (if bool_decide (component ∈ DEPENDENCY_BLACKLIST)
   then raise (HomeAssistantError (cannot_discover component))
   else ret tt);;
  h ← get_hass;
  setup_success ←
    (if bool_decide (component ∉ config_components h)
     then setup_async_setup_component component hass_config
     else ret true);
  if negb setup_success then ret tt
  else
    let data : gmap string PyVal :=
      <[ATTR_PLATFORM := PStr platform]>
        {[ATTR_SERVICE := PStr (EVENT_LOAD_PLATFORM_format component)]} in
    let data :=
      if is_not_None discovered then <[ATTR_DISCOVERED := discovered]> data
      else data in
    bus_async_fire EVENT_PLATFORM_DISCOVERED data.

Definition load_platform
    (component platform : string) (discovered hass_config : PyVal) : M unit :=
  hass_add_job (async_load_platform component platform discovered hass_config).

(** *** Reading a run *)

(** The calls the handlers [ls] make when [event] is delivered to them. *)
Definition delivered
    (ls : list Listener) (event : Event) (h : HomeAssistant) : list Call :=
  flat_map (fun l => calls (call_listener l event h)) ls.

(** The payload [async_discover] builds. *)
Definition discover_data (service : string) (discovered : PyVal)
    : gmap string PyVal :=
  if is_not_None discovered
  then <[ATTR_DISCOVERED := discovered]> {[ATTR_SERVICE := PStr service]}
  else {[ATTR_SERVICE := PStr service]}.

(** The payload [async_load_platform] builds. *)
Definition load_platform_data (component platform : string)
    (discovered : PyVal) : gmap string PyVal :=
  if is_not_None discovered
  then <[ATTR_DISCOVERED := discovered]>
         (<[ATTR_PLATFORM := PStr platform]>
            {[ATTR_SERVICE := PStr (EVENT_LOAD_PLATFORM_format component)]})
  else <[ATTR_PLATFORM := PStr platform]>
         {[ATTR_SERVICE := PStr (EVENT_LOAD_PLATFORM_format component)]}.

(** ** Sample collaborators, for concrete runs *)

Definition sample_blacklist : gset string := {["config"]}.

Definition sample_topic : string := "platform_discovered".

Definition setup_fails
    (component : string) (cfg : PyVal) (h : HomeAssistant)
    : bool * HomeAssistant :=
  (false, h).

Definition setup_succeeds
    (component : string) (cfg : PyVal) (h : HomeAssistant)
    : bool * HomeAssistant :=
  (true, mkHass ({[component]} ∪ config_components h) (bus_listeners h)).

Definition fresh_hass : HomeAssistant := mkHass ∅ ∅.

Definition sample_config : PyVal :=
  PDict [("homeassistant", PDict [("name", PStr "Home")])].

(** ** Properties *)

Ltac unfold_run :=
  cbv beta zeta delta
    [mbind mret M_bind M_ret bind ret raise call get_hass py_assert
     hass_add_job hass_async_add_job hass_async_run_job
     setup_async_setup_component];
  cbn [outcome final calls app negb].

Lemma py_eq_str_true (v : PyVal) (s : string) :
  py_eq_str v s = true <-> v = PStr s.
Proof.
  destruct v; simpl; try (split; [discriminate | intros [=]]).
  rewrite String.eqb_eq. split; [intros -> | intros [=]]; congruence.
Qed.

Lemma py_in_str (s : string) (names : list string) :
  py_in (PStr s) names = bool_decide (s ∈ names).
Proof.
  unfold py_in. induction names as [|n names IH].
  - reflexivity.
  - cbn [existsb py_eq_str]. rewrite IH.
    destruct (String.eqb_spec s n) as [->|Hne]; cbn [orb].
    + symmetry. apply bool_decide_eq_true_2. left.
    + apply bool_decide_ext. split.
      * intros H. by right.
      * intros H. inversion H; subst; [congruence | done].
Qed.

(** What the service handler does with an event, whatever the event. *)
Lemma discovery_event_listener_run service callback event h :
  discovery_event_listener service callback event h =
  mkRun (inr tt) h
    match data event !! ATTR_SERVICE with
    | Some v =>
        if py_in v service
        then [CAddJob callback v (dict_get (data event) ATTR_DISCOVERED)]
        else []
    | None => []
    end.
Proof.
  unfold discovery_event_listener, dict_contains, dict_getitem.
  destruct (data event !! ATTR_SERVICE) as [v|] eqn:E.
  - rewrite bool_decide_eq_true_2 by eauto.
    unfold_run. simpl. by destruct (py_in v service).
  - rewrite bool_decide_eq_false_2 by (intros [? ?]; discriminate).
    reflexivity.
Qed.

(** What the platform handler does with an event, whatever the event. *)
Lemma discovery_platform_listener_run service callback event h :
  discovery_platform_listener service callback event h =
  mkRun (inr tt) h
    (if py_eq_str (dict_get (data event) ATTR_SERVICE) service
        && truthy (dict_get (data event) ATTR_PLATFORM)
     then [CRunJob callback (dict_get (data event) ATTR_PLATFORM)
             (dict_get (data event) ATTR_DISCOVERED)]
     else []).
Proof.
  unfold discovery_platform_listener.
  destruct (py_eq_str _ service); simpl; [|done].
  by destruct (truthy _).
Qed.

Lemma call_listener_final l event h : final (call_listener l event h) = h.
Proof.
  destruct l; simpl.
  - by rewrite discovery_event_listener_run.
  - by rewrite discovery_platform_listener_run.
Qed.

Lemma call_listener_state l event h h' :
  calls (call_listener l event h) = calls (call_listener l event h').
Proof.
  destruct l; simpl.
  - by rewrite !discovery_event_listener_run.
  - by rewrite !discovery_platform_listener_run.
Qed.

Lemma call_listener_jobs l event h :
  forallb is_job (calls (call_listener l event h)) = true.
Proof.
  destruct l; simpl.
  - rewrite discovery_event_listener_run. simpl.
    destruct (data event !! ATTR_SERVICE); [|done].
    by destruct (py_in _ _).
  - rewrite discovery_platform_listener_run. simpl.
    by destruct (_ && _).
Qed.

Lemma delivered_state ls event h h' :
  delivered ls event h = delivered ls event h'.
Proof.
  unfold delivered. induction ls as [|l ls IH]; simpl; [done|].
  by rewrite IH, (call_listener_state l event h h').
Qed.

Lemma delivered_jobs ls event h : forallb is_job (delivered ls event h) = true.
Proof.
  unfold delivered. induction ls as [|l ls IH]; simpl; [done|].
  by rewrite forallb_app, call_listener_jobs, IH.
Qed.

Lemma delivered_app ls ls' event h :
  delivered (ls ++ ls') event h = delivered ls event h ++ delivered ls' event h.
Proof. unfold delivered. by rewrite flat_map_app. Qed.

Lemma deliver_run ls event h :
  deliver ls event h = mkRun (inr tt) h (delivered ls event h).
Proof.
  induction ls as [|l ls IH]; [done|].
  simpl. unfold_run. simpl. rewrite call_listener_final, IH. reflexivity.
Qed.

Lemma bus_async_fire_run topic event_data h :
  bus_async_fire topic event_data h =
  mkRun (inr tt) h
    (CFire topic event_data
       :: delivered (listeners_on topic h) (mkEvent topic event_data) h).
Proof.
  unfold bus_async_fire. unfold_run. simpl. by rewrite deliver_run.
Qed.

(** The run of [async_discover], path by path. *)
Lemma async_discover_run service discovered component hass_config h :
  async_discover service discovered component hass_config h =
  let d := discover_data service discovered in
  let announce (h' : HomeAssistant) :=
    CFire EVENT_PLATFORM_DISCOVERED d
      :: delivered (listeners_on EVENT_PLATFORM_DISCOVERED h')
           (mkEvent EVENT_PLATFORM_DISCOVERED d) h' in
  match component with
  | None => mkRun (inr tt) h (announce h)
  | Some c =>
      if bool_decide (c ∈ DEPENDENCY_BLACKLIST)
      then mkRun (inl (HomeAssistantError (cannot_discover c))) h []
      else if bool_decide (c ∈ config_components h)
      then mkRun (inr tt) h (announce h)
      else
        let h' := (async_setup_component c hass_config h).2 in
        mkRun (inr tt) h' (CSetup c hass_config :: announce h')
  end.
Proof.
  unfold async_discover, discover_data.
  destruct component as [c|]; cbn zeta.
  - destruct (bool_decide (c ∈ DEPENDENCY_BLACKLIST)) eqn:Ebl; [reflexivity|].
    unfold_run. unfold_run.
    destruct (decide (c ∈ config_components h)) as [Hin|Hnin].
    + rewrite (bool_decide_eq_false_2 (c ∉ _)) by (intros H; by apply H).
      rewrite (bool_decide_eq_true_2 (c ∈ _)) by done.
      unfold_run. by rewrite bus_async_fire_run.
    + rewrite (bool_decide_eq_true_2 (c ∉ _)) by done.
      rewrite (bool_decide_eq_false_2 (c ∈ _)) by done.
      unfold_run. by rewrite bus_async_fire_run.
  - unfold_run. unfold_run. by rewrite bus_async_fire_run.
Qed.

(** The run of [async_load_platform], path by path. *)
Lemma async_load_platform_run component platform discovered hass_config h :
  async_load_platform component platform discovered hass_config h =
  let d := load_platform_data component platform discovered in
  let announce (h' : HomeAssistant) :=
    CFire EVENT_PLATFORM_DISCOVERED d
      :: delivered (listeners_on EVENT_PLATFORM_DISCOVERED h')
           (mkEvent EVENT_PLATFORM_DISCOVERED d) h' in
  if negb (truthy hass_config)
  then mkRun (inl (AssertionError real_config_msg)) h []
  else if bool_decide (component ∈ DEPENDENCY_BLACKLIST)
  then mkRun (inl (HomeAssistantError (cannot_discover component))) h []
  else if bool_decide (component ∈ config_components h)
  then mkRun (inr tt) h (announce h)
  else
    let res := async_setup_component component hass_config h in
    if res.1
    then mkRun (inr tt) res.2 (CSetup component hass_config :: announce res.2)
    else mkRun (inr tt) res.2 [CSetup component hass_config].
Proof.
  unfold async_load_platform, load_platform_data.
  destruct (truthy hass_config); [|reflexivity]. cbn [negb].
  destruct (bool_decide (component ∈ DEPENDENCY_BLACKLIST)) eqn:Ebl; [reflexivity|].
  unfold_run. unfold_run.
  destruct (decide (component ∈ config_components h)) as [Hin|Hnin].
  - rewrite (bool_decide_eq_false_2 (component ∉ _)) by (intros H; by apply H).
    rewrite (bool_decide_eq_true_2 (component ∈ _)) by done.
    unfold_run. by rewrite bus_async_fire_run.
  - rewrite (bool_decide_eq_true_2 (component ∉ _)) by done.
    rewrite (bool_decide_eq_false_2 (component ∈ _)) by done.
    unfold_run.
    destruct (async_setup_component component hass_config h) as [ok h'].
    cbn [fst snd]. destruct ok; unfold_run; [|reflexivity].
    by rewrite bus_async_fire_run.
Qed.

(** Handlers only schedule jobs: an announcement in a trace is the
    producer's own. *)
Lemma fire_not_delivered t d ls event h : ¬ In (CFire t d) (delivered ls event h).
Proof.
  intros Hin. pose proof (delivered_jobs ls event h) as Hjobs.
  rewrite forallb_forall in Hjobs. by apply Hjobs in Hin.
Qed.

Lemma fire_split t d t' d' js pre post :
  forallb is_job js = true →
  CFire t d :: js = pre ++ CFire t' d' :: post →
  pre = [] ∧ t' = t ∧ d' = d.
Proof.
  intros Hjobs Heq. destruct pre as [|c pre]; simpl in Heq.
  - by inversion Heq.
  - inversion Heq as [[Hc Hjs]]. rewrite Hjs, forallb_app in Hjobs.
    simpl in Hjobs. by rewrite andb_false_r in Hjobs.
Qed.

Lemma fired_jobs js : forallb is_job js = true → fired js = [].
Proof.
  induction js as [|c js IH]; [done|]. simpl.
  intros [Hc Hjs]%andb_true_iff. rewrite (IH Hjs).
  by destruct c.
Qed.

Lemma discover_data_discovered service discovered :
  discover_data service discovered !! ATTR_DISCOVERED =
  if is_not_None discovered then Some discovered else None.
Proof.
  unfold discover_data. destruct (is_not_None discovered).
  - apply lookup_insert_eq.
  - by apply lookup_singleton_ne.
Qed.

Lemma load_platform_data_discovered component platform discovered :
  load_platform_data component platform discovered !! ATTR_DISCOVERED =
  if is_not_None discovered then Some discovered else None.
Proof.
  unfold load_platform_data. destruct (is_not_None discovered).
  - apply lookup_insert_eq.
  - rewrite lookup_insert_ne by done. by apply lookup_singleton_ne.
Qed.

Lemma load_platform_data_platform component platform discovered :
  load_platform_data component platform discovered !! ATTR_PLATFORM =
  Some (PStr platform).
Proof.
  unfold load_platform_data. destruct (is_not_None discovered).
  - rewrite lookup_insert_ne by done. apply lookup_insert_eq.
  - apply lookup_insert_eq.
Qed.

Lemma load_platform_data_service component platform discovered :
  load_platform_data component platform discovered !! ATTR_SERVICE =
  Some (PStr (EVENT_LOAD_PLATFORM_format component)).
Proof.
  unfold load_platform_data. destruct (is_not_None discovered).
  - rewrite !lookup_insert_ne by done. apply lookup_singleton_eq.
  - rewrite lookup_insert_ne by done. apply lookup_singleton_eq.
Qed.

Lemma discover_data_service service discovered :
  discover_data service discovered !! ATTR_SERVICE = Some (PStr service).
Proof.
  unfold discover_data. destruct (is_not_None discovered).
  - rewrite lookup_insert_ne by done. apply lookup_singleton_eq.
  - apply lookup_singleton_eq.
Qed.

Lemma dict_get_discovered (d : gmap string PyVal) discovered :
  d !! ATTR_DISCOVERED = (if is_not_None discovered then Some discovered else None) →
  dict_get d ATTR_DISCOVERED = discovered.
Proof.
  unfold dict_get. intros ->. by destruct discovered.
Qed.

(** [async_listen] and [async_listen_platform] add one handler, last. *)
Lemma async_listen_registers service callback h :
  listeners_on EVENT_PLATFORM_DISCOVERED (final (async_listen service callback h)) =
  listeners_on EVENT_PLATFORM_DISCOVERED h
    ++ [ServiceListener
          (match service with inl s => [s] | inr names => names end) callback].
Proof.
  unfold async_listen, bus_async_listen, listeners_on. simpl.
  by rewrite lookup_insert_eq.
Qed.

Lemma async_listen_platform_registers component callback h :
  listeners_on EVENT_PLATFORM_DISCOVERED
    (final (async_listen_platform component callback h)) =
  listeners_on EVENT_PLATFORM_DISCOVERED h
    ++ [PlatformListener (EVENT_LOAD_PLATFORM_format component) callback].
Proof.
  unfold async_listen_platform, bus_async_listen, listeners_on. simpl.
  by rewrite lookup_insert_eq.
Qed.

(** *** The activation guard *)

(** What [async_discover] does when the component is not yet active and
    not on the deny-list: one activation call, then the broadcast,
    whatever the activation returned. *)
Lemma async_discover_inactive service discovered c hass_config h :
  c ∉ DEPENDENCY_BLACKLIST →
  c ∉ config_components h →
  let r := async_discover service discovered (Some c) hass_config h in
  activations (calls r) = [(c, hass_config)]
  ∧ fired (calls r) =
      [(EVENT_PLATFORM_DISCOVERED, discover_data service discovered)]
  ∧ ∃ jobs,
      calls r =
        (CSetup c hass_config
           :: CFire EVENT_PLATFORM_DISCOVERED (discover_data service discovered)
           :: jobs)
      ∧ forallb is_job jobs = true.
Proof.
  intros Hbl Hact. rewrite async_discover_run. cbn zeta.
  rewrite !bool_decide_eq_false_2 by done. cbn [calls].
  set (js := delivered _ _ _).
  assert (Hjs : forallb is_job js = true) by apply delivered_jobs.
  repeat split.
  - simpl. clear -Hjs. induction js as [|x js IH]; [done|].
    simpl in Hjs. apply andb_true_iff in Hjs as [Hx Hjs].
    destruct x; try done; simpl; auto.
  - simpl. by rewrite (fired_jobs js Hjs).
  - by exists js.
Qed.

(** C2. In every run of [async_load_platform], an announcement in the trace
    is the platform event of the component, and it comes either first, the
    component being already active, or right after one activation call that
    returned true; when the component is not active and its activation
    returns false, the trace holds no announcement at all. *)
Theorem async_load_platform_announces_only_when_active
    component platform discovered hass_config h :
  let r := async_load_platform component platform discovered hass_config h in
  let res := async_setup_component component hass_config h in
  (∀ pre t d post, calls r = pre ++ CFire t d :: post →
     t = EVENT_PLATFORM_DISCOVERED
     ∧ d = load_platform_data component platform discovered
     ∧ (component ∈ config_components h ∧ pre = []
        ∨ (component ∉ config_components h) ∧ fst res = true
          ∧ pre = [CSetup component hass_config]))
  ∧ (component ∉ config_components h → fst res = false →
     fired (calls r) = []).
Proof.
  cbn zeta. rewrite async_load_platform_run. cbn zeta.
  destruct (truthy hass_config); cbn [negb calls].
  2:{ split; [|done]. intros [|? ?] ? ? ? Heq; discriminate Heq. }
  destruct (bool_decide (component ∈ DEPENDENCY_BLACKLIST)); cbn [calls].
  { split; [|done]. intros [|? ?] ? ? ? Heq; discriminate Heq. }
  destruct (decide (component ∈ config_components h)) as [Hin|Hnin].
  - rewrite bool_decide_eq_true_2 by done. cbn [calls]. split; [|done].
    intros pre t d post Heq.
    apply fire_split in Heq as (-> & -> & ->); [|apply delivered_jobs].
    auto.
  - rewrite bool_decide_eq_false_2 by done.
    destruct (async_setup_component component hass_config h) as [ok h'].
    cbn [fst snd]. destruct ok; cbn [calls final outcome].
    + split; [|discriminate]. intros pre t d post Heq.
      destruct pre as [|c pre]; [discriminate Heq|].
      simpl in Heq. injection Heq as <- Heq.
      apply fire_split in Heq as (-> & -> & ->); [|apply delivered_jobs].
      auto 6.
    + split; [|done]. intros pre t d post Heq.
      destruct pre as [|c [|c' pre]]; discriminate Heq.
Qed.

(** C3. For a component on the deny-list, [async_discover]
    raises [HomeAssistantError], and so does [async_load_platform] whenever
    its configuration is non-empty; in both the host is left as it was and
    no call is made to any collaborator: no activation, no broadcast, no
    callback. *)
Theorem blacklisted_component_is_refused
    service component platform discovered hass_config hass_config' h :
  component ∈ DEPENDENCY_BLACKLIST →
  async_discover service discovered (Some component) hass_config h =
    mkRun (inl (HomeAssistantError (cannot_discover component))) h []
  ∧ (truthy hass_config' = true →
     async_load_platform component platform discovered hass_config' h =
       mkRun (inl (HomeAssistantError (cannot_discover component))) h []).
Proof.
  intros Hbl. split.
  - rewrite async_discover_run. cbn zeta. by rewrite bool_decide_eq_true_2.
  - intros Hcfg. rewrite async_load_platform_run. cbn zeta.
    by rewrite Hcfg, bool_decide_eq_true_2.
Qed.

(** C8. [async_load_platform] called with a missing ([None]) or empty
    configuration, or any configuration that tests false, ends with the
    assertion error, the host as it was and no call made to any
    collaborator; with a configuration that tests true the assertion error
    is never the outcome. *)
Theorem async_load_platform_asserts_real_config
    component platform discovered hass_config h :
  let run cfg := async_load_platform component platform discovered cfg h in
  let failed := mkRun (inl (AssertionError real_config_msg)) h [] in
  run PNone = failed
  ∧ run (PDict []) = failed
  ∧ (if truthy hass_config
     then ∀ msg, outcome (run hass_config) ≠ inl (AssertionError msg)
     else run hass_config = failed).
Proof.
  cbv beta zeta. rewrite !async_load_platform_run. cbv beta zeta.
  split; [done|]. split; [done|].
  destruct (truthy hass_config); cbn [negb]; [|done].
  intros msg.
  destruct (bool_decide (component ∈ DEPENDENCY_BLACKLIST)); [done|].
  destruct (bool_decide (component ∈ config_components h)); [done|].
  by destruct (async_setup_component component hass_config h).1.
Qed.

(** C9. [async_load_platform] called with a configuration that tests false
    and a component on the deny-list ends with the assertion error, not
    with [HomeAssistantError]. *)
Theorem async_load_platform_assert_precedes_blacklist
    component platform discovered hass_config h :
  component ∈ DEPENDENCY_BLACKLIST →
  truthy hass_config = false →
  let r := async_load_platform component platform discovered hass_config h in
  outcome r = inl (AssertionError real_config_msg)
  ∧ ∀ msg, outcome r ≠ inl (HomeAssistantError msg).
Proof.
  intros _ Hcfg. cbn zeta. rewrite async_load_platform_run. cbn zeta.
  by rewrite Hcfg.
Qed.

(** *** Producers and listeners together *)

(** C4. After [async_listen_platform "hub" callback], a run of
    [async_load_platform "hub" "driverA" {"id": 1}] with a real
    configuration, "hub" being off the deny-list and either active already
    or activated with success by a routine that leaves the handlers of the
    topic in place, broadcasts one event,
    [{service: "load_platform.hub", platform: "driverA", discovered: {"id": 1}}],
    and the handler just registered answers it with exactly one call of
    [callback], on ["driverA"] and [{"id": 1}], after whatever the handlers
    registered earlier do. *)
Theorem load_platform_round_trip callback hass_config h :
  let topic := EVENT_PLATFORM_DISCOVERED in
  let info := PDict [("id", PInt 1)] in
  let h1 := final (async_listen_platform "hub" callback h) in
  let res := async_setup_component "hub" hass_config h1 in
  truthy hass_config = true →
  "hub" ∉ DEPENDENCY_BLACKLIST →
  "hub" ∈ config_components h1
  ∨ fst res = true ∧ listeners_on topic (snd res) = listeners_on topic h1 →
  let r := async_load_platform "hub" "driverA" info hass_config h1 in
  let d : gmap string PyVal :=
    <[ATTR_DISCOVERED := info]>
      (<[ATTR_PLATFORM := PStr "driverA"]>
         {[ATTR_SERVICE := PStr "load_platform.hub"]}) in
  outcome r = inr tt
  ∧ fired (calls r) = [(topic, d)]
  ∧ ∃ pre,
      (pre = [] ∨ pre = [CSetup "hub" hass_config])
      ∧ calls r =
          pre ++ CFire topic d
            :: delivered (listeners_on topic h) (mkEvent topic d) h
            ++ [CRunJob callback (PStr "driverA") info].
Proof.
  cbv zeta. intros Hcfg Hbl Hready.
  rewrite async_load_platform_run. cbv zeta.
  rewrite Hcfg. cbn [negb]. rewrite (bool_decide_eq_false_2 _ Hbl).
  change (load_platform_data "hub" "driverA" (PDict [("id", PInt 1)]))
    with (<[ATTR_DISCOVERED := PDict [("id", PInt 1)]]>
            (<[ATTR_PLATFORM := PStr "driverA"]>
               ({[ATTR_SERVICE := PStr "load_platform.hub"]}
                  : gmap string PyVal))).
  set (d := <[ATTR_DISCOVERED := _]> _).
  set (h1 := final (async_listen_platform "hub" callback h)) in *.
  assert (Hmine : ∀ hx,
    delivered [PlatformListener (EVENT_LOAD_PLATFORM_format "hub") callback]
      (mkEvent EVENT_PLATFORM_DISCOVERED d) hx =
    [CRunJob callback (PStr "driverA") (PDict [("id", PInt 1)])]).
  { intros hx. unfold delivered. cbn [flat_map call_listener].
    rewrite discovery_platform_listener_run. reflexivity. }
  assert (Hls : ∀ hx,
    listeners_on EVENT_PLATFORM_DISCOVERED hx =
      listeners_on EVENT_PLATFORM_DISCOVERED h1 →
    delivered (listeners_on EVENT_PLATFORM_DISCOVERED hx)
      (mkEvent EVENT_PLATFORM_DISCOVERED d) hx =
    delivered (listeners_on EVENT_PLATFORM_DISCOVERED h)
      (mkEvent EVENT_PLATFORM_DISCOVERED d) h
      ++ [CRunJob callback (PStr "driverA") (PDict [("id", PInt 1)])]).
  { intros hx ->. unfold h1. rewrite async_listen_platform_registers.
    rewrite delivered_app, Hmine. f_equal. apply delivered_state. }
  destruct (decide ("hub" ∈ config_components h1)) as [Hin|Hnin].
  - rewrite bool_decide_eq_true_2 by done. cbn [outcome calls].
    rewrite (Hls h1 eq_refl). split; [done|]. split.
    + simpl. rewrite fired_jobs; [done|].
      rewrite forallb_app, delivered_jobs. reflexivity.
    + exists []. split; [by left|reflexivity].
  - rewrite bool_decide_eq_false_2 by done.
    destruct Hready as [Hin|[Hok Hkeep]]; [done|].
    rewrite Hok. cbn [outcome calls]. rewrite (Hls _ Hkeep).
    split; [done|]. split.
    + simpl. rewrite fired_jobs; [done|].
      rewrite forallb_app, delivered_jobs. reflexivity.
    + exists [CSetup "hub" hass_config]. split; [by right|reflexivity].
Qed.

(** C5. [async_discover service discovered None cfg] (and [discover], which
    schedules it) makes one broadcast, of the event that carries [service]
    and, unless it is [None], [discovered]; the event is delivered once to
    each handler registered on the topic at the time of the call; the
    handler of [async_listen names callback] answers it with exactly one
    call of [callback], on [service] and [discovered], when [service] is
    among [names], and with nothing otherwise. *)
Theorem discover_reaches_service_listeners service discovered hass_config h :
  let topic := EVENT_PLATFORM_DISCOVERED in
  let d := discover_data service discovered in
  let r := async_discover service discovered None hass_config h in
  r = mkRun (inr tt) h
        (CFire topic d :: delivered (listeners_on topic h) (mkEvent topic d) h)
  ∧ discover service discovered None hass_config h = r
  ∧ fired (calls r) = [(topic, d)]
  ∧ dict_get d ATTR_SERVICE = PStr service
  ∧ dict_get d ATTR_DISCOVERED = discovered
  ∧ (∀ names callback h0,
       listeners_on topic (final (async_listen names callback h0)) =
       listeners_on topic h0
         ++ [ServiceListener
               (match names with inl s => [s] | inr l => l end) callback])
  ∧ (∀ names callback h',
       call_listener (ServiceListener names callback) (mkEvent topic d) h' =
       mkRun (inr tt) h'
         (if bool_decide (service ∈ names)
          then [CAddJob callback (PStr service) discovered]
          else [])).
Proof.
  cbv zeta.
  assert (Hrun : async_discover service discovered None hass_config h =
    mkRun (inr tt) h
      (CFire EVENT_PLATFORM_DISCOVERED (discover_data service discovered)
         :: delivered (listeners_on EVENT_PLATFORM_DISCOVERED h)
              (mkEvent EVENT_PLATFORM_DISCOVERED
                 (discover_data service discovered)) h))
    by (by rewrite async_discover_run).
  assert (Hdisc : dict_get (discover_data service discovered) ATTR_DISCOVERED
                  = discovered)
    by apply dict_get_discovered, discover_data_discovered.
  split; [done|]. split; [|split; [|split; [|split; [|split]]]].
  - unfold discover, hass_add_job. by rewrite Hrun.
  - rewrite Hrun. simpl. by rewrite fired_jobs by apply delivered_jobs.
  - unfold dict_get. by rewrite discover_data_service.
  - done.
  - intros names callback h0. apply async_listen_registers.
  - intros names callback h'. cbn [call_listener].
    rewrite discovery_event_listener_run. cbn [data].
    rewrite discover_data_service, py_in_str, Hdisc. reflexivity.
Qed.

(** C6. The handler registered by [async_listen_platform "hub" callback]
    makes no call at all, and raises nothing, on an event whose service is
    ["load_platform.other"] or ["hub"], and on an event whose service is
    ["load_platform.hub"] but whose platform field is absent or tests false
    (empty). *)
Theorem hub_platform_listener_filters callback h event h' :
  data event !! ATTR_SERVICE = Some (PStr "load_platform.other")
  ∨ data event !! ATTR_SERVICE = Some (PStr "hub")
  ∨ data event !! ATTR_SERVICE = Some (PStr "load_platform.hub")
    ∧ (data event !! ATTR_PLATFORM = None
       ∨ ∃ v, data event !! ATTR_PLATFORM = Some v ∧ truthy v = false) →
  ∃ l,
    listeners_on EVENT_PLATFORM_DISCOVERED
      (final (async_listen_platform "hub" callback h)) =
    listeners_on EVENT_PLATFORM_DISCOVERED h ++ [l]
    ∧ call_listener l event h' = mkRun (inr tt) h' [].
Proof.
  intros Hev. eexists. split; [apply async_listen_platform_registers|].
  cbn [call_listener]. rewrite discovery_platform_listener_run.
  unfold dict_get.
  destruct Hev as [-> | [-> | [-> [-> | (v & -> & Hv)]]]]; simpl;
    [done | done | done |].
  by rewrite Hv.
Qed.

(** C7. An event broadcast by [async_discover] or by [async_load_platform]
    has no [discovered] field when [discovered] is [None], and carries
    [discovered] as given otherwise, the empty mapping included; and the
    event is broadcast indeed: once by every run of [async_discover] that
    returns normally, and once by every run of [async_load_platform] that
    returns normally with the component active or activated with success. *)
Theorem omitted_discovered_is_absent
    service component_opt component platform discovered hass_config h :
  let rd := async_discover service discovered component_opt hass_config h in
  let rl := async_load_platform component platform discovered hass_config h in
  let field :=
    match discovered with
    | PNone => None
    | _ => Some discovered
    end in
  (∀ t d, In (CFire t d) (calls rd) ∨ In (CFire t d) (calls rl) →
     d !! ATTR_DISCOVERED = field)
  ∧ (outcome rd = inr tt →
     ∃ d, fired (calls rd) = [(EVENT_PLATFORM_DISCOVERED, d)]
          ∧ d !! ATTR_DISCOVERED = field)
  ∧ (outcome rl = inr tt →
     component ∈ config_components h
     ∨ fst (async_setup_component component hass_config h) = true →
     ∃ d, fired (calls rl) = [(EVENT_PLATFORM_DISCOVERED, d)]
          ∧ d !! ATTR_DISCOVERED = field).
Proof.
  cbv zeta.
  assert (Hshape : (if is_not_None discovered then Some discovered else None)
                   = match discovered with PNone => None | _ => Some discovered end)
    by (by destruct discovered).
  rewrite <- Hshape. clear Hshape.
  split; [|split].
  - intros t d [Hin | Hin].
    + rewrite async_discover_run in Hin. cbv zeta in Hin.
      assert (d = discover_data service discovered) as ->;
        [|apply discover_data_discovered].
      destruct component_opt as [c|];
        [destruct (bool_decide (c ∈ DEPENDENCY_BLACKLIST));
         [|destruct (bool_decide (c ∈ config_components h))]|];
        simpl in Hin; intuition (try congruence);
        exfalso; eapply fire_not_delivered; eassumption.
    + rewrite async_load_platform_run in Hin. cbv zeta in Hin.
      assert (d = load_platform_data component platform discovered) as ->;
        [|apply load_platform_data_discovered].
      destruct (truthy hass_config);
        [destruct (bool_decide (component ∈ DEPENDENCY_BLACKLIST));
         [|destruct (bool_decide (component ∈ config_components h));
           [|destruct (async_setup_component component hass_config h)
               as [[|] hx]]]|];
        simpl in Hin; intuition (try congruence);
        exfalso; eapply fire_not_delivered; eassumption.
  - rewrite async_discover_run. cbv zeta. intros Hok.
    exists (discover_data service discovered).
    split; [|apply discover_data_discovered].
    destruct component_opt as [c|];
      [destruct (bool_decide (c ∈ DEPENDENCY_BLACKLIST));
       [discriminate Hok|destruct (bool_decide (c ∈ config_components h))]|];
      cbn [calls]; simpl;
      by rewrite fired_jobs by apply delivered_jobs.
  - rewrite async_load_platform_run. cbv zeta. intros Hok Hready.
    exists (load_platform_data component platform discovered).
    split; [|apply load_platform_data_discovered].
    destruct (truthy hass_config); cbn [negb] in *; [|discriminate Hok].
    destruct (bool_decide (component ∈ DEPENDENCY_BLACKLIST));
      [discriminate Hok|].
    destruct (decide (component ∈ config_components h)) as [Hin|Hnin].
    + rewrite bool_decide_eq_true_2 by done. cbn [calls]. simpl.
      by rewrite fired_jobs by apply delivered_jobs.
    + rewrite bool_decide_eq_false_2 by done.
      destruct Hready as [Hin|Hsetup]; [done|]. rewrite Hsetup.
      cbn [calls]. simpl.
      by rewrite fired_jobs by apply delivered_jobs.
Qed.

(** C10. On an event whose data has no [service] field, the handler of
    [async_listen] returns normally (no [KeyError]) and makes no call; the
    same holds for every handler the helpers register. *)
Theorem service_listener_ignores_event_without_service
    service callback event h :
  data event !! ATTR_SERVICE = None →
  discovery_event_listener service callback event h = mkRun (inr tt) h []
  ∧ ∀ l, call_listener l event h = mkRun (inr tt) h [].
Proof.
  intros Hnone. split.
  - by rewrite discovery_event_listener_run, Hnone.
  - intros [names cb | topic cb]; cbn [call_listener].
    + by rewrite discovery_event_listener_run, Hnone.
    + rewrite discovery_platform_listener_run. unfold dict_get at 1.
      by rewrite Hnone.
Qed.

(** *** Further properties of the handlers *)

Lemma py_in_not_str v names :
  (∀ s, v ≠ PStr s) → py_in v names = false.
Proof.
  intros Hv. unfold py_in. induction names as [|n names IH]; [done|].
  cbn [existsb]. rewrite IH, orb_false_r.
  destruct v; try done. by destruct (Hv s).
Qed.

Lemma PyVal_str_cases v : (∃ s, v = PStr s) ∨ (∀ s, v ≠ PStr s).
Proof. destruct v; try (by right); left; by eexists. Qed.

Lemma activations_jobs js : forallb is_job js = true → activations js = [].
Proof.
  induction js as [|c js IH]; [done|]. simpl.
  intros [Hc Hjs]%andb_true_iff. rewrite (IH Hjs).
  by destruct c.
Qed.

Lemma EVENT_LOAD_PLATFORM_format_inj c c' :
  EVENT_LOAD_PLATFORM_format c = EVENT_LOAD_PLATFORM_format c' → c = c'.
Proof. unfold EVENT_LOAD_PLATFORM_format. simpl. by intros [=]. Qed.

Lemma discover_data_platform service discovered :
  discover_data service discovered !! ATTR_PLATFORM = None.
Proof.
  unfold discover_data. destruct (is_not_None discovered).
  - rewrite lookup_insert_ne by done. by apply lookup_singleton_ne.
  - by apply lookup_singleton_ne.
Qed.

(** The one event a run of a producer may broadcast. *)
Lemma async_discover_fired_event
    service discovered component hass_config h t d :
  In (CFire t d)
     (calls (async_discover service discovered component hass_config h)) →
  t = EVENT_PLATFORM_DISCOVERED ∧ d = discover_data service discovered.
Proof.
  rewrite async_discover_run. cbv zeta.
  destruct component as [c|];
    [destruct (bool_decide (c ∈ DEPENDENCY_BLACKLIST));
     [|destruct (bool_decide (c ∈ config_components h))]|];
    simpl; intros Hin; intuition (try congruence);
    exfalso; eapply fire_not_delivered; eassumption.
Qed.

Lemma async_load_platform_fired_event
    component platform discovered hass_config h t d :
  In (CFire t d)
     (calls (async_load_platform component platform discovered hass_config h)) →
  t = EVENT_PLATFORM_DISCOVERED
  ∧ d = load_platform_data component platform discovered.
Proof.
  rewrite async_load_platform_run. cbv zeta.
  destruct (truthy hass_config);
    [destruct (bool_decide (component ∈ DEPENDENCY_BLACKLIST));
     [|destruct (bool_decide (component ∈ config_components h));
       [|destruct (async_setup_component component hass_config h) as [[|] hx]]]|];
    simpl; intros Hin; intuition (try congruence);
    exfalso; eapply fire_not_delivered; eassumption.
Qed.

(** X1. Whatever the event, a handler registered by the helpers makes at
    most one call to its collaborators.  It never broadcasts and never
    activates a component: its only call passes its own consumer callback
    to [hass.async_add_job], for the handler of [async_listen], or to
    [hass.async_run_job], for the handler of [async_listen_platform]. *)
Theorem listeners_only_pass_own_callback l event h :
  let cs := calls (call_listener l event h) in
  (length cs ≤ 1)%nat
  ∧ fired cs = []
  ∧ activations cs = []
  ∧ ∀ c, In c cs →
      ∃ a1 a2,
        match l with
        | ServiceListener _ callback => c = CAddJob callback a1 a2
        | PlatformListener _ callback => c = CRunJob callback a1 a2
        end.
Proof.
  cbv zeta.
  split; [|split; [apply fired_jobs, call_listener_jobs
                  |split; [apply activations_jobs, call_listener_jobs|]]].
  - destruct l; cbn [call_listener].
    + rewrite discovery_event_listener_run. cbn [calls].
      destruct (data event !! ATTR_SERVICE); [|simpl; lia].
      destruct (py_in _ _); simpl; lia.
    + rewrite discovery_platform_listener_run. cbn [calls].
      destruct (_ && _); simpl; lia.
  - intros c. destruct l; cbn [call_listener].
    + rewrite discovery_event_listener_run. cbn [calls].
      destruct (data event !! ATTR_SERVICE); [|intros []].
      destruct (py_in _ _); [|intros []].
      intros [<-|[]]. eauto.
    + rewrite discovery_platform_listener_run. cbn [calls].
      destruct (_ && _); [|intros []].
      intros [<-|[]]. eauto.
Qed.

(** X2. The handler of [async_listen] schedules its callback exactly when
    the event has a [service] field holding a string that is one of the
    registered names; the callback then gets that string and
    [event.data.get("discovered")].  A [service] that is not a string never
    matches. *)
Theorem service_listener_fires_iff names callback event h c :
  In c (calls (discovery_event_listener names callback event h)) ↔
  ∃ s, data event !! ATTR_SERVICE = Some (PStr s)
       ∧ s ∈ names
       ∧ c = CAddJob callback (PStr s) (dict_get (data event) ATTR_DISCOVERED).
Proof.
  rewrite discovery_event_listener_run. cbn [calls].
  destruct (data event !! ATTR_SERVICE) as [v|] eqn:Ev.
  2:{ split; [intros []|]. by intros (s & [=] & _). }
  destruct (PyVal_str_cases v) as [[s ->]|Hns].
  - rewrite py_in_str. case_bool_decide as Hin.
    + split.
      * intros [<-|[]]. by exists s.
      * intros (s' & [= <-] & _ & ->). by left.
    + split; [intros []|]. by intros (s' & [= <-] & Hin' & _).
  - rewrite py_in_not_str by done.
    split; [intros []|]. intros (s & [= ->] & _). by apply (Hns s).
Qed.

(** X3. The handler of [async_listen_platform] runs its callback exactly
    when the event's [service] is the handler's topic and its [platform]
    field is present and tests true; the callback gets the platform value
    as it is in the event (it is not required to be a string) and
    [event.data.get("discovered")]. *)
Theorem platform_listener_fires_iff topic callback event h c :
  In c (calls (discovery_platform_listener topic callback event h)) ↔
  ∃ v, data event !! ATTR_SERVICE = Some (PStr topic)
       ∧ data event !! ATTR_PLATFORM = Some v
       ∧ truthy v = true
       ∧ c = CRunJob callback v (dict_get (data event) ATTR_DISCOVERED).
Proof.
  rewrite discovery_platform_listener_run. cbn [calls]. unfold dict_get at 1 2 3.
  destruct (data event !! ATTR_SERVICE) as [sv|] eqn:Es; cbn [default from_option id].
  2:{ split; [intros []|]. by intros (v & [=] & _). }
  destruct (py_eq_str sv topic) eqn:Eeq; cbn [andb].
  2:{ split; [intros []|]. intros (v & [= ->] & _).
      simpl in Eeq. by rewrite String.eqb_refl in Eeq. }
  apply py_eq_str_true in Eeq as ->.
  destruct (data event !! ATTR_PLATFORM) as [pv|] eqn:Ep; cbn [default from_option id].
  2:{ split; [intros []|]. by intros (v & _ & [=] & _). }
  destruct (truthy pv) eqn:Et.
  - split.
    + intros [<-|[]]. by exists pv.
    + intros (v & _ & [= <-] & _ & ->). by left.
  - split; [intros []|]. intros (v & _ & [= <-] & Ht & _). congruence.
Qed.

(** X4. An event broadcast by [async_load_platform component platform] is
    answered by the handler of [async_listen_platform component'] with one
    run of its callback on [platform] and [discovered] when the components
    are the same and [platform] is not the empty string, and with nothing
    otherwise. *)
Theorem platform_event_round_trip
    component platform discovered hass_config h t d component' callback h' :
  In (CFire t d)
     (calls (async_load_platform component platform discovered hass_config h)) →
  call_listener
    (PlatformListener (EVENT_LOAD_PLATFORM_format component') callback)
    (mkEvent t d) h' =
  mkRun (inr tt) h'
    (if bool_decide (component' = component) && negb (String.eqb platform "")
     then [CRunJob callback (PStr platform) discovered]
     else []).
Proof.
  intros (-> & ->)%async_load_platform_fired_event.
  cbn [call_listener]. rewrite discovery_platform_listener_run. cbn [data].
  unfold dict_get at 1 2 3.
  rewrite load_platform_data_service, load_platform_data_platform.
  cbn [default from_option id py_eq_str truthy].
  rewrite (dict_get_discovered _ discovered)
    by apply load_platform_data_discovered.
  f_equal. case_bool_decide as Hc.
  - subst component'. by rewrite String.eqb_refl.
  - destruct (String.eqb_spec (EVENT_LOAD_PLATFORM_format component)
                (EVENT_LOAD_PLATFORM_format component')) as [Heq|]; [|done].
    apply EVENT_LOAD_PLATFORM_format_inj in Heq. congruence.
Qed.

(** X5. An event broadcast by [async_discover] is dropped by every handler
    of [async_listen_platform], whatever the service name it announces: it
    has no [platform] field. *)
Theorem discover_event_reaches_no_platform_listener
    service discovered component hass_config h t d topic callback h' :
  In (CFire t d)
     (calls (async_discover service discovered component hass_config h)) →
  d !! ATTR_PLATFORM = None
  ∧ call_listener (PlatformListener topic callback) (mkEvent t d) h' =
    mkRun (inr tt) h' [].
Proof.
  intros (-> & ->)%async_discover_fired_event.
  split; [apply discover_data_platform|].
  cbn [call_listener]. rewrite discovery_platform_listener_run. cbn [data].
  unfold dict_get at 2. rewrite discover_data_platform. cbn [default from_option id truthy].
  by rewrite andb_false_r.
Qed.

(** X6. The two layers share the topic: an event broadcast by
    [async_load_platform component] is answered by a handler of
    [async_listen names] exactly when ["load_platform." + component] is one
    of [names]; its callback gets that synthesized name and [discovered],
    and the platform is not passed on. *)
Theorem platform_event_reaches_service_listener
    component platform discovered hass_config h t d names callback h' :
  In (CFire t d)
     (calls (async_load_platform component platform discovered hass_config h)) →
  call_listener (ServiceListener names callback) (mkEvent t d) h' =
  mkRun (inr tt) h'
    (if bool_decide (EVENT_LOAD_PLATFORM_format component ∈ names)
     then [CAddJob callback (PStr (EVENT_LOAD_PLATFORM_format component))
             discovered]
     else []).
Proof.
  intros (-> & ->)%async_load_platform_fired_event.
  cbn [call_listener]. rewrite discovery_event_listener_run. cbn [data].
  rewrite load_platform_data_service, py_in_str.
  by rewrite (dict_get_discovered _ discovered)
    by apply load_platform_data_discovered.
Qed.

(** X7. Only the set of names given to [async_listen] matters: two handlers
    whose tuples hold the same names, in any order and with any repeats,
    do the same on every event. *)
Theorem service_listener_names_as_set names names' callback event h :
  (∀ s, s ∈ names ↔ s ∈ names') →
  discovery_event_listener names callback event h =
  discovery_event_listener names' callback event h.
Proof.
  intros Hsame. rewrite !discovery_event_listener_run. f_equal.
  destruct (data event !! ATTR_SERVICE) as [v|]; [|done].
  destruct (PyVal_str_cases v) as [[s ->]|Hns].
  - rewrite !py_in_str. by rewrite (bool_decide_ext _ _ (Hsame s)).
  - by rewrite !py_in_not_str by done.
Qed.

(** *** Further properties of the producers *)

(** X8. For a component off the deny-list that is already active, neither
    producer calls the activation: [async_discover], whatever its
    configuration, and [async_load_platform], given a configuration of its
    own that tests true, leave the host as it was, return normally and
    broadcast their one event. *)
Theorem active_component_needs_no_setup
    service platform discovered c hass_config hass_config' h :
  c ∉ DEPENDENCY_BLACKLIST →
  c ∈ config_components h →
  truthy hass_config' = true →
  let rd := async_discover service discovered (Some c) hass_config h in
  let rl := async_load_platform c platform discovered hass_config' h in
  (outcome rd = inr tt ∧ final rd = h ∧ activations (calls rd) = []
   ∧ fired (calls rd) =
       [(EVENT_PLATFORM_DISCOVERED, discover_data service discovered)])
  ∧ (outcome rl = inr tt ∧ final rl = h ∧ activations (calls rl) = []
     ∧ fired (calls rl) =
         [(EVENT_PLATFORM_DISCOVERED,
           load_platform_data c platform discovered)]).
Proof.
  intros Hbl Hact Hcfg. cbv zeta.
  rewrite async_discover_run, async_load_platform_run. cbv zeta.
  rewrite Hcfg. cbn [negb].
  rewrite !(bool_decide_eq_false_2 _ Hbl), !(bool_decide_eq_true_2 _ Hact).
  cbn [outcome final calls]. simpl.
  by rewrite !activations_jobs, !fired_jobs by apply delivered_jobs.
Qed.

(** X9. [async_discover] fails only for a component on the deny-list, and
    then with [HomeAssistantError]; the configuration is never tested, so
    an empty one raises nothing.  A run calls the activation at most once
    and broadcasts at most once, and a run without activation call leaves
    the host as it was. *)
Theorem async_discover_outcome service discovered component hass_config h :
  let r := async_discover service discovered component hass_config h in
  outcome r =
    match component with
    | Some c =>
        if bool_decide (c ∈ DEPENDENCY_BLACKLIST)
        then inl (HomeAssistantError (cannot_discover c))
        else inr tt
    | None => inr tt
    end
  ∧ (length (activations (calls r)) ≤ 1)%nat
  ∧ (length (fired (calls r)) ≤ 1)%nat
  ∧ (activations (calls r) = [] → final r = h).
Proof.
  cbv zeta. rewrite async_discover_run. cbv zeta.
  destruct component as [c|];
    [destruct (bool_decide (c ∈ DEPENDENCY_BLACKLIST));
     [|destruct (bool_decide (c ∈ config_components h))]|];
    cbn [outcome final calls]; simpl;
    rewrite ?activations_jobs, ?fired_jobs by apply delivered_jobs;
    simpl; repeat split; try lia; done.
Qed.

(** X10. [async_load_platform] fails with the assertion error on a
    configuration that tests false, else with [HomeAssistantError] on a
    component of the deny-list, and returns normally otherwise.  A run calls
    the activation at most once and broadcasts at most once; a run without
    activation call leaves the host as it was; and a normal return without
    broadcast happens exactly when the component was not active and its
    activation returned false. *)
Theorem async_load_platform_outcome
    component platform discovered hass_config h :
  let r := async_load_platform component platform discovered hass_config h in
  let res := async_setup_component component hass_config h in
  outcome r =
    (if negb (truthy hass_config)
     then inl (AssertionError real_config_msg)
     else if bool_decide (component ∈ DEPENDENCY_BLACKLIST)
     then inl (HomeAssistantError (cannot_discover component))
     else inr tt)
  ∧ (length (activations (calls r)) ≤ 1)%nat
  ∧ (length (fired (calls r)) ≤ 1)%nat
  ∧ (activations (calls r) = [] → final r = h)
  ∧ (outcome r = inr tt →
     (fired (calls r) = [] ↔
      (component ∉ config_components h) ∧ fst res = false)).
Proof.
  cbv zeta. rewrite async_load_platform_run. cbv zeta.
  destruct (truthy hass_config); cbn [negb outcome final calls].
  2:{ simpl. repeat split; try lia; done. }
  destruct (bool_decide (component ∈ DEPENDENCY_BLACKLIST));
    cbn [outcome final calls].
  { simpl. repeat split; try lia; done. }
  destruct (decide (component ∈ config_components h)) as [Hin|Hnin].
  - rewrite bool_decide_eq_true_2 by done. cbn [outcome final calls]. simpl.
    rewrite activations_jobs, fired_jobs by apply delivered_jobs. simpl.
    repeat split; try lia; try done. by intros [Hn _].
  - rewrite bool_decide_eq_false_2 by done.
    destruct (async_setup_component component hass_config h) as [[|] hx];
      cbn [fst snd outcome final calls]; simpl;
      rewrite ?activations_jobs, ?fired_jobs by apply delivered_jobs; simpl;
      repeat split; try lia; try done.
Qed.

End Discovery.

(** ** Concrete runs *)

(** C1. A run of [async_discover] for a component that is not active and
    whose activation returns false: the activation is called once, and the
    event is broadcast all the same and reaches the handler registered for
    the service, whose callback is scheduled. *)
Theorem async_discover_announces_after_failed_setup :
  let h := final (async_listen sample_topic (inl "svc") "on_svc" fresh_hass) in
("hub" ∉ config_components h)
  ∧ fst (setup_fails "hub" sample_config h) = false
  ∧ async_discover sample_blacklist sample_topic setup_fails
      "svc" PNone (Some "hub") sample_config h =
    mkRun (inr tt) h
      [CSetup "hub" sample_config;
       CFire sample_topic {[ATTR_SERVICE := PStr "svc"]};
       CAddJob "on_svc" (PStr "svc") PNone].
Proof.
  cbv zeta. split; [|split].
  - simpl. set_solver.
  - reflexivity.
  - vm_compute. reflexivity.
Qed.

(** The same call through [async_load_platform]'s guard is silent. *)
Example async_load_platform_silent_after_failed_setup :
  async_load_platform sample_blacklist sample_topic setup_fails
    "hub" "driverA" PNone sample_config fresh_hass =
  mkRun (inr tt) fresh_hass [CSetup "hub" sample_config].
Proof. vm_compute. reflexivity. Qed.

Example async_load_platform_after_setup :
  calls (async_load_platform sample_blacklist sample_topic setup_succeeds
           "hub" "driverA" PNone sample_config fresh_hass) =
  [CSetup "hub" sample_config;
   CFire sample_topic
     (<[ATTR_PLATFORM := PStr "driverA"]>
        {[ATTR_SERVICE := PStr "load_platform.hub"]})].
Proof. vm_compute. reflexivity. Qed.

(** C3, without the proviso on the configuration: for a component on the
    deny-list and an empty configuration, [async_load_platform] ends in the
    assertion error and not in [HomeAssistantError]. *)
Lemma blacklisted_component_empty_config :
  "config" ∈ sample_blacklist
  ∧ outcome (async_load_platform sample_blacklist sample_topic setup_succeeds
               "config" "driverA" PNone (PDict []) fresh_hass)
    = inl (AssertionError real_config_msg)
  ∧ (∀ msg,
       outcome (async_load_platform sample_blacklist sample_topic setup_succeeds
                  "config" "driverA" PNone (PDict []) fresh_hass)
       ≠ inl (HomeAssistantError msg)).
Proof.
  split; [|split].
  - apply elem_of_singleton. reflexivity.
  - reflexivity.
  - intros msg. discriminate.
Qed.

Lemma blacklisted_component_is_refused_witness :
  async_discover sample_blacklist sample_topic setup_succeeds
    "svc" PNone (Some "config") sample_config fresh_hass =
    mkRun (inl (HomeAssistantError "Cannot discover the config component."))
      fresh_hass []
  ∧ async_load_platform sample_blacklist sample_topic setup_succeeds
      "config" "driverA" PNone sample_config fresh_hass =
    mkRun (inl (HomeAssistantError "Cannot discover the config component."))
      fresh_hass [].
Proof.
  assert (Hbl : "config" ∈ sample_blacklist)
    by (apply elem_of_singleton; reflexivity).
  destruct (blacklisted_component_is_refused sample_blacklist sample_topic
              setup_succeeds "svc" "config" "driverA" PNone sample_config
              sample_config fresh_hass Hbl) as [Hd Hl].
  split; [exact Hd | exact (Hl eq_refl)].
Defined.

Lemma async_load_platform_assert_precedes_blacklist_witness :
  outcome (async_load_platform sample_blacklist sample_topic setup_succeeds
             "config" "driverA" PNone (PDict []) fresh_hass)
    = inl (AssertionError real_config_msg)
  ∧ ∀ msg,
      outcome (async_load_platform sample_blacklist sample_topic setup_succeeds
                 "config" "driverA" PNone (PDict []) fresh_hass)
      ≠ inl (HomeAssistantError msg).
Proof.
  apply (async_load_platform_assert_precedes_blacklist sample_blacklist
           sample_topic setup_succeeds "config" "driverA" PNone (PDict [])
           fresh_hass).
  - apply elem_of_singleton. reflexivity.
  - reflexivity.
Defined.

Lemma load_platform_round_trip_witness :
  let h1 := final (async_listen_platform sample_topic "hub" "on_hub" fresh_hass) in
  let r := async_load_platform sample_blacklist sample_topic setup_succeeds
             "hub" "driverA" (PDict [("id", PInt 1)]) sample_config h1 in
  let d : gmap string PyVal :=
    <[ATTR_DISCOVERED := PDict [("id", PInt 1)]]>
      (<[ATTR_PLATFORM := PStr "driverA"]>
         {[ATTR_SERVICE := PStr "load_platform.hub"]}) in
  outcome r = inr tt
  ∧ fired (calls r) = [(sample_topic, d)]
  ∧ ∃ pre,
      (pre = [] ∨ pre = [CSetup "hub" sample_config])
      ∧ calls r =
          pre ++ CFire sample_topic d
            :: delivered (listeners_on sample_topic fresh_hass)
                 (mkEvent sample_topic d) fresh_hass
            ++ [CRunJob "on_hub" (PStr "driverA") (PDict [("id", PInt 1)])].
Proof.
  apply (load_platform_round_trip sample_blacklist sample_topic setup_succeeds
           "on_hub" sample_config fresh_hass).
  - reflexivity.
  - intros H. apply elem_of_singleton in H. discriminate H.
  - right. split; reflexivity.
Defined.

Lemma hub_platform_listener_filters_witness :
  ∃ l,
    listeners_on sample_topic
      (final (async_listen_platform sample_topic "hub" "on_hub" fresh_hass)) =
    listeners_on sample_topic fresh_hass ++ [l]
    ∧ call_listener l
        (mkEvent sample_topic {[ATTR_SERVICE := PStr "load_platform.hub"]})
        fresh_hass
      = mkRun (inr tt) fresh_hass [].
Proof.
  apply (hub_platform_listener_filters sample_topic "on_hub" fresh_hass
           (mkEvent sample_topic {[ATTR_SERVICE := PStr "load_platform.hub"]})
           fresh_hass).
  right. right. split; [reflexivity | left; reflexivity].
Defined.

Lemma omitted_discovered_is_absent_witness :
  (∃ d, fired (calls (async_discover sample_blacklist sample_topic
                        setup_succeeds "svc" PNone None sample_config
                        fresh_hass))
        = [(sample_topic, d)]
        ∧ d !! ATTR_DISCOVERED = None)
  ∧ (∃ d, fired (calls (async_load_platform sample_blacklist sample_topic
                          setup_succeeds "hub" "driverA" (PDict [])
                          sample_config fresh_hass))
          = [(sample_topic, d)]
          ∧ d !! ATTR_DISCOVERED = Some (PDict [])).
Proof.
  split.
  - destruct (omitted_discovered_is_absent sample_blacklist sample_topic
                setup_succeeds "svc" None "hub" "driverA" PNone sample_config
                fresh_hass) as (_ & Hdiscover & _).
    apply Hdiscover. reflexivity.
  - destruct (omitted_discovered_is_absent sample_blacklist sample_topic
                setup_succeeds "svc" None "hub" "driverA" (PDict [])
                sample_config fresh_hass) as (_ & _ & Hload).
    apply Hload; [reflexivity | right; reflexivity].
Defined.

Lemma service_listener_ignores_event_without_service_witness :
  discovery_event_listener ["svc"] "on_svc"
    (mkEvent sample_topic {[ATTR_PLATFORM := PStr "driverA"]}) fresh_hass
  = mkRun (inr tt) fresh_hass []
  ∧ ∀ l,
      call_listener l
        (mkEvent sample_topic {[ATTR_PLATFORM := PStr "driverA"]}) fresh_hass
      = mkRun (inr tt) fresh_hass [].
Proof.
  apply (service_listener_ignores_event_without_service ["svc"] "on_svc"
           (mkEvent sample_topic {[ATTR_PLATFORM := PStr "driverA"]})
           fresh_hass).
  reflexivity.
Defined.

(** ** Concrete runs of the further properties *)

Lemma platform_event_round_trip_witness :
  call_listener
    (PlatformListener (EVENT_LOAD_PLATFORM_format "hub") "on_hub")
    (mkEvent sample_topic
       (<[ATTR_PLATFORM := PStr "driverA"]>
          {[ATTR_SERVICE := PStr "load_platform.hub"]})) fresh_hass =
  mkRun (inr tt) fresh_hass [CRunJob "on_hub" (PStr "driverA") PNone].
Proof.
  apply (platform_event_round_trip sample_blacklist sample_topic setup_succeeds
           "hub" "driverA" PNone sample_config fresh_hass sample_topic
           (<[ATTR_PLATFORM := PStr "driverA"]>
              {[ATTR_SERVICE := PStr "load_platform.hub"]})
           "hub" "on_hub" fresh_hass).
  vm_compute. right. left. reflexivity.
Defined.

Lemma discover_event_reaches_no_platform_listener_witness :
  ({[ATTR_SERVICE := PStr "load_platform.hub"]} : gmap string PyVal)
    !! ATTR_PLATFORM = None
  ∧ call_listener (PlatformListener "load_platform.hub" "on_hub")
      (mkEvent sample_topic {[ATTR_SERVICE := PStr "load_platform.hub"]})
      fresh_hass =
    mkRun (inr tt) fresh_hass [].
Proof.
  apply (discover_event_reaches_no_platform_listener sample_blacklist
           sample_topic setup_succeeds "load_platform.hub" PNone None
           sample_config fresh_hass sample_topic
           {[ATTR_SERVICE := PStr "load_platform.hub"]}
           "load_platform.hub" "on_hub" fresh_hass).
  vm_compute. left. reflexivity.
Defined.

Lemma platform_event_reaches_service_listener_witness :
  call_listener (ServiceListener ["load_platform.hub"] "on_any")
    (mkEvent sample_topic
       (<[ATTR_PLATFORM := PStr "driverA"]>
          {[ATTR_SERVICE := PStr "load_platform.hub"]})) fresh_hass =
  mkRun (inr tt) fresh_hass
    [CAddJob "on_any" (PStr "load_platform.hub") PNone].
Proof.
  apply (platform_event_reaches_service_listener sample_blacklist sample_topic
           setup_succeeds "hub" "driverA" PNone sample_config fresh_hass
           sample_topic
           (<[ATTR_PLATFORM := PStr "driverA"]>
              {[ATTR_SERVICE := PStr "load_platform.hub"]})
           ["load_platform.hub"] "on_any" fresh_hass).
  vm_compute. right. left. reflexivity.
Defined.

Lemma service_listener_names_as_set_witness :
  discovery_event_listener ["a"; "b"] "on_svc"
    (mkEvent sample_topic {[ATTR_SERVICE := PStr "b"]}) fresh_hass =
  discovery_event_listener ["b"; "a"; "a"] "on_svc"
    (mkEvent sample_topic {[ATTR_SERVICE := PStr "b"]}) fresh_hass.
Proof.
  apply (service_listener_names_as_set ["a"; "b"] ["b"; "a"; "a"] "on_svc"
           (mkEvent sample_topic {[ATTR_SERVICE := PStr "b"]}) fresh_hass).
  intros s. rewrite !list_elem_of_In. simpl. tauto.
Defined.

Lemma active_component_needs_no_setup_witness :
  let h := mkHass {["hub"]} ∅ in
  let rd := async_discover sample_blacklist sample_topic setup_fails
              "svc" PNone (Some "hub") (PDict []) h in
  let rl := async_load_platform sample_blacklist sample_topic setup_fails
              "hub" "driverA" PNone sample_config h in
  (outcome rd = inr tt ∧ final rd = h ∧ activations (calls rd) = []
   ∧ fired (calls rd) = [(sample_topic, discover_data "svc" PNone)])
  ∧ (outcome rl = inr tt ∧ final rl = h ∧ activations (calls rl) = []
     ∧ fired (calls rl) =
         [(sample_topic, load_platform_data "hub" "driverA" PNone)]).
Proof.
  apply (active_component_needs_no_setup sample_blacklist sample_topic
           setup_fails "svc" "driverA" PNone "hub" (PDict []) sample_config
           (mkHass {["hub"]} ∅)).
  - intros H. apply elem_of_singleton in H. discriminate H.
  - vm_compute. reflexivity.
  - reflexivity.
Defined.
